(** * UltraViolet permissions: generators

    A shallow embedding of [ultraviolet_permissions/generators.py] and the
    properties of its role extraction ([get_roles]) and of its generators
    ([ProprietaryRecordPermissions], [AdminSuperUser], the per-role
    generators and the conditional [IfRestricted]).

    Records are JSON-like documents; the Python operations the module
    applies to them ([dict.get], [in], [str.replace], [str.lower],
    iteration, truthiness) are modelled with the exceptions they raise on
    values of the wrong type, in a small error monad. *)

From Stdlib Require Import Ascii String ZArith.
From stdpp Require Import gmap strings list fin_maps.

Set Warnings "-register-all".

(** ** Python values and exceptions *)

(** The documents the generators read: [None], booleans, integers, text,
    lists and dictionaries with text keys. *)
Inductive value : Type :=
| VNone
| VBool (b : bool)
| VInt (n : Z)
| VStr (s : string)
| VList (l : list value)
| VDict (d : gmap string value).

(** The exceptions the module's code can raise on such documents. *)
Inductive exn : Type :=
| AttributeError
| TypeError
| IndexError.

Inductive result (A : Type) : Type :=
| Ok (a : A)
| Raise (e : exn).

Arguments Ok {A} a.
Arguments Raise {A} e.

#[global] Instance result_ret : MRet result := λ A a, Ok a.
#[global] Instance result_bind : MBind result := λ A B f r,
  match r with
  | Ok a => f a
  | Raise e => Raise e
  end.

Definition raises {A} (r : result A) : Prop := ∃ e, r = Raise e.

(** ** Text operations *)

Module Str.

(** [s.startswith(p)]. *)
Fixpoint startswith (p s : string) : bool :=
  match p with
  | EmptyString => true
  | String a p' =>
      match s with
      | EmptyString => false
      | String b s' => Ascii.eqb a b && startswith p' s'
      end
  end.

(** [sub in s] for two texts. *)
Fixpoint contains (sub s : string) : bool :=
  startswith sub s ||
  match s with
  | EmptyString => false
  | String _ s' => contains sub s'
  end.

(** The scan of [str.replace] for a non-empty [old]: [skip] counts the
    characters of a match that are still to be passed over. *)
Fixpoint replace_from (old new : string) (skip : nat) (s : string) : string :=
  match s with
  | EmptyString => EmptyString
  | String c s' =>
      match skip with
      | S k => replace_from old new k s'
      | O =>
          if startswith old s
          then new +:+ replace_from old new (String.length old - 1) s'
          else String c (replace_from old new 0 s')
      end
  end.

(** [s.replace("", new)] puts [new] before every character and at the
    end. *)
Fixpoint interleave (new s : string) : string :=
  match s with
  | EmptyString => new
  | String c s' => new +:+ String c (interleave new s')
  end.

(** [s.replace(old, new)]: every occurrence found in one scan from the
    left is replaced, occurrences do not overlap. *)
Definition replace (old new s : string) : string :=
  match old with
  | EmptyString => interleave new s
  | String _ _ => replace_from old new 0 s
  end.

(** [s[n:]]. *)
Fixpoint drop (n : nat) (s : string) : string :=
  match n, s with
  | S k, String _ s' => drop k s'
  | _, _ => s
  end.

(** [s.replace(old, new, 1)]: the first occurrence only. *)
Fixpoint replace_first (old new s : string) : string :=
  if startswith old s
  then new +:+ drop (String.length old) s
  else match s with
       | EmptyString => EmptyString
       | String c s' => String c (replace_first old new s')
       end.

Definition is_upper (c : ascii) : bool :=
  let n := nat_of_ascii c in (65 <=? n)%nat && (n <=? 90)%nat.

Definition lower_char (c : ascii) : ascii :=
  if is_upper c then ascii_of_nat (nat_of_ascii c + 32) else c.

(** [s.lower()] on ASCII text; other characters are left as they are. *)
Fixpoint lower (s : string) : string :=
  match s with
  | EmptyString => EmptyString
  | String c s' => String (lower_char c) (lower s')
  end.

(** The characters of a text, each as a text of length one. *)
Fixpoint chars (s : string) : list string :=
  match s with
  | EmptyString => []
  | String c s' => String c EmptyString :: chars s'
  end.

End Str.

(** ** Operations on values *)

(** [bool(v)]. *)
Definition truthy (v : value) : bool :=
  match v with
  | VNone => false
  | VBool b => b
  | VInt n => negb (n =? 0)%Z
  | VStr s => negb (String.eqb s "")
  | VList l => match l with [] => false | _ :: _ => true end
  | VDict d => match map_to_list d with [] => false | _ :: _ => true end
  end.

(** [v == s] for a text literal [s]. *)
Definition py_eq_str (v : value) (s : string) : bool :=
  match v with
  | VStr t => String.eqb t s
  | _ => false
  end.

(** [v.get(k, default)]: only dictionaries have the method. *)
Definition py_get (v : value) (k : string) (default_ : value) : result value :=
  match v with
  | VDict d => Ok (default default_ (d !! k))
  | _ => Raise AttributeError
  end.

(** [s in v] for a text [s]. *)
Definition py_in (s : string) (v : value) : result bool :=
  match v with
  | VStr t => Ok (Str.contains s t)
  | VList l => Ok (existsb (λ x, py_eq_str x s) l)
  | VDict d => Ok (bool_decide (is_Some (d !! s)))
  | VNone | VBool _ | VInt _ => Raise TypeError
  end.

(** [v.replace(old, new)]. *)
Definition py_replace (v : value) (old new : string) : result value :=
  match v with
  | VStr t => Ok (VStr (Str.replace old new t))
  | _ => Raise AttributeError
  end.

(** [v.lower()]. *)
Definition py_lower (v : value) : result string :=
  match v with
  | VStr t => Ok (Str.lower t)
  | _ => Raise AttributeError
  end.

(** The items a [for] loop over [v] visits; a dictionary yields its keys,
    a text its characters. *)
Definition py_iter (v : value) : result (list value) :=
  match v with
  | VList l => Ok l
  | VStr t => Ok (VStr <$> Str.chars t)
  | VDict d => Ok ((λ kv, VStr kv.1) <$> map_to_list d)
  | VNone | VBool _ | VInt _ => Raise TypeError
  end.

(** [v.name]: no JSON-like value has such an attribute. *)
Definition py_attr_name (v : value) : result string :=
  match v with
  | _ => Raise AttributeError
  end.

(** [l[0]]. *)
Definition py_index0 {A} (l : list A) : result A :=
  match l with
  | x :: _ => Ok x
  | [] => Raise IndexError
  end.

(** ** Needs and identities *)

(** A need is a pair of a method and a value, as in [flask_principal]. *)
Record Need : Type := mkNeed { method : string; need_value : string }.

#[global] Instance Need_eq_dec : EqDecision Need.
Proof. solve_decision. Defined.

#[global] Instance Need_countable : Countable Need :=
  inj_countable' (λ n, (method n, need_value n)) (λ p, mkNeed p.1 p.2)
    (λ n, match n with mkNeed _ _ => eq_refl end).

Definition RoleNeed : string → Need := mkNeed "role".
Definition ActionNeed : string → Need := mkNeed "action".
Definition SystemRoleNeed : string → Need := mkNeed "system_role".

Definition superuser_access : Need := ActionNeed "superuser-access".
Definition any_user : Need := SystemRoleNeed "any_user".
Definition authenticated_user : Need := SystemRoleNeed "authenticated_user".

(** An identity carries the set of needs it provides. *)
Record Identity : Type := mkIdentity { provides : gset Need }.

(** What [query_filter] returns: a search query [Q(name)] or the empty
    list [[]]. *)
Inductive clause : Type :=
| Q (name : string)
| EmptyList.

(** A generator, as the policy tables and [IfRestricted] use it: an object
    with a [needs] method taking the record ([None] when not given). *)
Record Generator : Type := mkGenerator { gen_needs : value → result (list Need) }.

(** ** Role extraction *)

(** [if tag in role: role = role.replace(tag, "")]. *)
Definition strip_tag (tag : string) (role : value) : result value :=
  found ← py_in tag role;
  if found : bool then py_replace role tag "" else Ok role.

(** The body of the loop of [get_roles], for one description. *)
Definition get_roles_body (user_role : string) (roles : list string)
    (description : value) : result (list string) :=
  ty ← py_get description "type" VNone;
  id ← py_get ty "id" VNone;
  if py_eq_str id "technical-info" then
    role ← py_get description "description" VNone;
    role ← strip_tag "<p>" role;
    role ← strip_tag "</p>" role;
    low ← py_lower role;
    match role with
    | VStr text =>
        if String.eqb low user_role then Ok (roles ++ [text]) else Ok roles
    | _ => Raise AttributeError
    end
  else Ok roles.

Fixpoint get_roles_loop (user_role : string) (descriptions : list value)
    (roles : list string) : result (list string) :=
  match descriptions with
  | [] => Ok roles
  | description :: rest =>
      roles' ← get_roles_body user_role roles description;
      get_roles_loop user_role rest roles'
  end.

Definition get_roles (record : value) (user_role : string) : result (list string) :=
  metadata ← py_get record "metadata" VNone;
  additional_descriptions ← py_get metadata "additional_descriptions" (VList []);
  descriptions ← py_iter additional_descriptions;
  get_roles_loop user_role descriptions [].

(** ** Generators *)

Module ProprietaryRecordPermissions.

Fixpoint needs_loop (descriptions : list value) : result (list Need) :=
  match descriptions with
  | [] => Ok []
  | description :: rest =>
      ty ← py_get description "type" VNone;
      if py_eq_str ty "technical-info" then
        role ← py_get description "description" VNone;
        role ← strip_tag "<p>" role;
        role ← strip_tag "</p>" role;
        name ← py_attr_name role;
        Ok [RoleNeed name]
      else needs_loop rest
  end.

Definition needs (record : value) : result (list Need) :=
  match record with
  | VNone => Ok [authenticated_user]
  | _ =>
      metadata ← py_get record "metadata" VNone;
      additional_descriptions ←
        py_get metadata "additional_descriptions" (VList []);
      descriptions ← py_iter additional_descriptions;
      needs_loop descriptions
  end.

Definition query_filter : result clause := Ok (Q "can_all").

Definition new : Generator := mkGenerator needs.

End ProprietaryRecordPermissions.

Module AdminSuperUser.

Definition needs (record : value) : result (list Need) := Ok [superuser_access].

Definition query_filter (identity : option Identity) : result clause :=
  match identity with
  | None => Raise AttributeError
  | Some i =>
      if bool_decide (superuser_access ∈ provides i)
      then Ok (Q "match_all")
      else Ok EmptyList
  end.

Definition new : Generator := mkGenerator needs.

End AdminSuperUser.

(** The five per-role generators share one body and differ in the role
    class they pass to [get_roles]. *)
Definition role_needs (user_role : string) (record : value) : result (list Need) :=
  roles ← get_roles record user_role;
  if (length roles =? 0)%nat then Ok [] else Ok (RoleNeed <$> roles).

Module Depositor.
Definition needs : value → result (list Need) := role_needs "depositor".
Definition new : Generator := mkGenerator needs.
End Depositor.

Module Viewer.
Definition needs : value → result (list Need) := role_needs "viewer".
Definition new : Generator := mkGenerator needs.
End Viewer.

Module RestrictedDataUser.
Definition needs : value → result (list Need) := role_needs "restricted_data_user".
Definition new : Generator := mkGenerator needs.
End RestrictedDataUser.

Module PublicViewer.
Definition needs : value → result (list Need) := role_needs "public_viewer".
Definition new : Generator := mkGenerator needs.
End PublicViewer.

Module Curator.
Definition needs : value → result (list Need) := role_needs "curator".
Definition new : Generator := mkGenerator needs.
End Curator.

Module IfRestricted.

Record t : Type := init { field : string; then_ : list Generator; else_ : list Generator }.

(** [getattr(generators[0], 'needs')()]: the needs of the first generator
    of a branch, called with no argument, so with [record=None]. *)
Definition first_needs (generators : list Generator) : result (list Need) :=
  g ← py_index0 generators;
  gen_needs g VNone.

(** Past the guard [record] is truthy, so [record and e] is [e]. *)
Definition needs (self : t) (record : value) : result (list Need) :=
  if negb (truthy record) then Ok []
  else
    access ← py_get record "access" (VDict ∅);
    is_field_restricted ← py_get access (field self) (VStr "restricted");
    if py_eq_str is_field_restricted "restricted"
    then first_needs (then_ self)
    else first_needs (else_ self).

Definition query_filter : result clause := Ok (Q "match_all").

Definition new (field : string) (then_ else_ : list Generator) : Generator :=
  mkGenerator (needs (init field then_ else_)).

End IfRestricted.

(** ** Concrete records *)

(** A dictionary literal with distinct keys. *)
Definition dict (items : list (string * value)) : value :=
  VDict (list_to_map items).

(** A description entry [{"type": {"id": id}, "description": text}]. *)
Definition description_entry (id text : string) : value :=
  dict [("type", dict [("id", VStr id)]); ("description", VStr text)].

(** A record whose metadata holds the given [additional_descriptions]. *)
Definition record_with (descriptions : list value) : value :=
  dict [("metadata", dict [("additional_descriptions", VList descriptions)])].

(** The [additional_descriptions] list of a record, when its metadata is a
    dictionary that holds one. *)
Definition descriptions_of (record : value) : option (list value) :=
  match record with
  | VDict r =>
      match r !! "metadata" with
      | Some (VDict m) =>
          match m !! "additional_descriptions" with
          | Some (VList l) => Some l
          | _ => None
          end
      | _ => None
      end
  | _ => None
  end.

(** [description] is a dictionary with [type.id == id] and
    [description == text]; it may hold other keys. *)
Definition entry_has (description : value) (id text : string) : Prop :=
  ∃ e t, description = VDict e ∧ e !! "type" = Some (VDict t) ∧
         t !! "id" = Some (VStr id) ∧ e !! "description" = Some (VStr text).

(** An entry with no [type] key. *)
Definition lacks_type (description : value) : Prop :=
  ∃ e, description = VDict e ∧ e !! "type" = None.

(** An entry of type ["technical-info"] with no [description] key. *)
Definition lacks_description (description : value) : Prop :=
  ∃ e t, description = VDict e ∧ e !! "type" = Some (VDict t) ∧
         t !! "id" = Some (VStr "technical-info") ∧ e !! "description" = None.

(** Text without the character [<]. *)
Fixpoint plain (t : string) : bool :=
  match t with
  | EmptyString => true
  | String c t' => negb (Ascii.eqb "<" c) && plain t'
  end.

(** The text [<p>t1</p>...<p>tn</p>]. *)
Fixpoint paragraphs (ts : list string) : string :=
  match ts with
  | [] => EmptyString
  | t :: ts' => "<p>" +:+ t +:+ "</p>" +:+ paragraphs ts'
  end.

(** The text [t1...tn]. *)
Fixpoint joined (ts : list string) : string :=
  match ts with
  | [] => EmptyString
  | t :: ts' => t +:+ joined ts'
  end.

(** What the first-occurrence-only reading of the stripping step would
    leave of a text. *)
Definition strip_first_only (text : string) : string :=
  Str.replace_first "</p>" "" (Str.replace_first "<p>" "" text).

(** What the two [str.replace] calls of the source leave of a text. *)
Definition strip_markup (text : string) : string :=
  Str.replace "</p>" "" (Str.replace "<p>" "" text).

(** ** Policy tables

    [policies.py] builds, per policy class, lists of generators. Those of
    the host framework are taken as given: the tables only place them. *)
Record Framework : Type := mkFramework {
  AnyUser : Generator;
  AuthenticatedUser : Generator;
  Disable : Generator;
  SystemProcess : Generator;
  RecordOwners : Generator;
  SecretLinks : string → Generator;
  CommunityAction : string → Generator
}.

(** The high-level lists and the record actions of
    [NYURecordPermissionPolicy]. *)
Module NYURecordPermissionPolicy.
Section Table.
Variable F : Framework.

Definition can_manage : list Generator :=
  [RecordOwners F; SystemProcess F; AdminSuperUser.new].
Definition can_curate : list Generator :=
  can_manage ++ [SecretLinks F "edit"; Curator.new].
Definition can_preview : list Generator :=
  can_manage ++ [SecretLinks F "preview"; Viewer.new; Depositor.new].
Definition can_view : list Generator :=
  can_manage ++ [SecretLinks F "view"; Viewer.new; Depositor.new].
Definition can_authenticated : list Generator :=
  [AuthenticatedUser F; SystemProcess F].
Definition can_all : list Generator := [AnyUser F; SystemProcess F].
Definition can_search : list Generator := can_all.
Definition can_read : list Generator :=
  [IfRestricted.new "record" can_view can_all].
Definition can_read_files : list Generator :=
  [IfRestricted.new "files" can_view can_all].
Definition can_create : list Generator := can_authenticated ++ [Depositor.new].

End Table.
End NYURecordPermissionPolicy.

(** The same of [DataUseRecordPermissionPolicy]. *)
Module DataUseRecordPermissionPolicy.
Section Table.
Variable F : Framework.

Definition can_manage : list Generator :=
  [RecordOwners F; SystemProcess F; AdminSuperUser.new].
Definition can_curate : list Generator :=
  can_manage ++ [SecretLinks F "edit"; Curator.new].
Definition can_preview : list Generator :=
  can_manage ++ [SecretLinks F "preview"; RestrictedDataUser.new].
Definition can_view : list Generator :=
  can_manage ++ [SecretLinks F "view"; RestrictedDataUser.new].
Definition can_authenticated : list Generator :=
  [AuthenticatedUser F; SystemProcess F].
Definition can_all : list Generator := [AnyUser F; SystemProcess F].
Definition can_search : list Generator := can_all.
Definition can_read : list Generator :=
  [IfRestricted.new "record" can_view can_all].
Definition can_read_files : list Generator :=
  [IfRestricted.new "files" can_view can_all].
Definition can_create : list Generator := can_authenticated.

End Table.
End DataUseRecordPermissionPolicy.

(** What the host gets from a rule, a list of generators, for a record:
    the needs of each generator in turn. *)
Definition rule_needs (rule : list Generator) (record : value)
    : list (result (list Need)) :=
  (λ g, gen_needs g record) <$> rule.

(** An entry whose type is a mapping with an [id] other than
    ["technical-info"], or with none. *)
Definition other_type (description : value) : Prop :=
  ∃ e t, description = VDict e ∧ e !! "type" = Some (VDict t) ∧
         t !! "id" ≠ Some (VStr "technical-info").

(** An entry whose [type] is not the text ["technical-info"] itself. *)
Definition type_not_text (description : value) : Prop :=
  ∃ e, description = VDict e ∧ e !! "type" ≠ Some (VStr "technical-info").

(** An entry whose [type] is the text ["technical-info"]. *)
Definition type_is_text (description : value) : Prop :=
  ∃ e, description = VDict e ∧ e !! "type" = Some (VStr "technical-info").

(** A need of method [role] whose name reads as [user_role] in lower case. *)
Definition role_need_of (user_role : string) (need : Need) : Prop :=
  method need = "role" ∧ Str.lower (need_value need) = user_role.

(** A framework whose generators each ask for one named need. *)
Definition sample_framework : Framework :=
  mkFramework
    (mkGenerator (λ _, Ok [any_user]))
    (mkGenerator (λ _, Ok [authenticated_user]))
    (mkGenerator (λ _, Ok []))
    (mkGenerator (λ _, Ok [SystemRoleNeed "system_process"]))
    (mkGenerator (λ record,
       match record with
       | VNone => Ok [authenticated_user]
       | _ => Ok [mkNeed "id" "1"]
       end))
    (λ permission, mkGenerator (λ _, Ok [mkNeed "link" permission]))
    (λ action, mkGenerator (λ _, Ok [mkNeed "community" action])).

(** A record with two viewers, one depositor and a note. *)
Definition shared_record : value :=
  record_with [description_entry "technical-info" "<p>Viewer</p>";
               description_entry "abstract" "<p>viewer</p>";
               description_entry "technical-info" "depositor";
               description_entry "technical-info" "VIEWER"].

(** A record with files restricted and metadata open. *)
Definition files_restricted_record : value :=
  dict [("access", dict [("record", VStr "public"); ("files", VStr "restricted")]);
        ("metadata", dict [])].

(** A record whose [access] is a text. *)
Definition text_access_record : value :=
  dict [("access", VStr "restricted"); ("metadata", dict [])].


(** The records and identities the examples below are stated on. *)

(** [{"access": {"record": "restricted"}, "metadata": {}}]. *)
Definition restricted_record : value :=
  dict [("access", dict [("record", VStr "restricted")]); ("metadata", dict [])].

(** [{"access": {"record": "public"}, "metadata": {}}]. *)
Definition public_record : value :=
  dict [("access", dict [("record", VStr "public")]); ("metadata", dict [])].

(** [{"access": {}, "metadata": {}}]: no restriction state for any field. *)
Definition unmarked_record : value :=
  dict [("access", dict []); ("metadata", dict [])].

(** A record with one role-bearing description, [<p>Curator</p>]. *)
Definition curator_record : value :=
  record_with [description_entry "technical-info" "<p>Curator</p>"].

(** A record whose role is spread over two paragraphs. *)
Definition two_paragraph_record : value :=
  record_with [description_entry "technical-info" "<p>cur</p><p>ator</p>"].

(** A record whose only description has no [type]. *)
Definition untyped_entry_record : value :=
  record_with [dict [("description", VStr "<p>Curator</p>")]].

(** A record with an [access] mapping and no [metadata]. *)
Definition bare_record : value :=
  dict [("access", dict [("record", VStr "public")])].

(** A record as the data model has it: the role in a description of
    [type.id == "technical-info"]. *)
Definition nyu_record : value :=
  record_with [description_entry "technical-info" "<p>nyu</p>"].

(** The same with the type given as a text, the shape
    [ProprietaryRecordPermissions.needs] compares against. *)
Definition nyu_flat_record : value :=
  record_with [dict [("type", VStr "technical-info"); ("description", VStr "<p>nyu</p>")]].

Definition admin_identity : Identity :=
  mkIdentity {[ superuser_access; authenticated_user ]}.

Definition plain_identity : Identity :=
  mkIdentity {[ authenticated_user ]}.

(** One step of evaluation of the operations on values. *)
Ltac py_step :=
  cbn [py_get py_eq_str py_in py_lower py_replace py_iter py_index0
       mbind result_bind default from_option id].

(** * Properties *)

(** ** The scan of [str.replace] *)

Section Replace.

Variables old new : string.

Lemma replace_from_skip (k : nat) (s : string) :
  Str.replace_from old new k s = Str.replace_from old new 0 (Str.drop k s).
Proof.
  revert k. induction s as [|c s IH]; intros [|k]; simpl; try reflexivity.
  rewrite IH. reflexivity.
Qed.

(** At a match the scan emits [new] and goes on behind the match. *)
Lemma replace_from_match (c : ascii) (s : string) :
  old ≠ "" → Str.startswith old (String c s) = true →
  Str.replace_from old new 0 (String c s) =
    new +:+ Str.replace_from old new 0 (Str.drop (String.length old) (String c s)).
Proof.
  intros Hold Hp. cbn [Str.replace_from]. rewrite Hp.
  rewrite replace_from_skip.
  destruct old as [|o old']; [done|]. cbn [String.length Str.drop].
  by replace (S (String.length old') - 1) with (String.length old') by lia.
Qed.

(** Elsewhere it copies one character. *)
Lemma replace_from_copy (c : ascii) (s : string) :
  Str.startswith old (String c s) = false →
  Str.replace_from old new 0 (String c s) =
    String c (Str.replace_from old new 0 s).
Proof. intros Hp. cbn [Str.replace_from]. by rewrite Hp. Qed.

(** Without an occurrence, [replace] returns the text as it is: the
    [in] guards of the source do not change what a text becomes. *)
Lemma replace_absent (s : string) :
  Str.contains old s = false → Str.replace old new s = s.
Proof.
  unfold Str.replace. destruct old as [|o old'] eqn:E.
  - destruct s; simpl; discriminate.
  - rewrite <- E. clear E. induction s as [|c s IH]; [done|].
    cbn [Str.contains]. intros [Hp Hc]%orb_false_iff.
    rewrite replace_from_copy by done. by rewrite IH.
Qed.

End Replace.

Lemma app_assoc_string (a b c : string) : (a +:+ b) +:+ c = a +:+ b +:+ c.
Proof.
  induction a as [|x a IH]; [done|].
  change (String x ((a +:+ b) +:+ c) = String x (a +:+ b +:+ c)). by rewrite IH.
Qed.

Lemma startswith_app (tag rest : string) : Str.startswith tag (tag +:+ rest) = true.
Proof.
  induction tag as [|c tag IH]; [done|].
  change (Ascii.eqb c c && Str.startswith tag (tag +:+ rest) = true).
  by rewrite Ascii.eqb_refl.
Qed.

Lemma drop_app (tag rest : string) : Str.drop (String.length tag) (tag +:+ rest) = rest.
Proof. induction tag as [|c tag IH]; [by destruct rest|done]. Qed.

(** An occurrence at the head of the text is replaced and the scan goes on
    with what follows it. *)
Lemma replace_from_tag (tag new rest : string) :
  tag ≠ "" →
  Str.replace_from tag new 0 (tag +:+ rest) = new +:+ Str.replace_from tag new 0 rest.
Proof.
  intros Htag. pose proof (startswith_app tag rest) as Hs.
  rewrite <- (drop_app tag rest) at 2.
  destruct tag as [|c tag']; [done|].
  change (String c tag' +:+ rest) with (String c (tag' +:+ rest)) in *.
  by apply replace_from_match.
Qed.

(** A tag that starts with [<] is not found inside plain text. *)
Lemma replace_from_plain (tag new t rest : string) :
  plain t = true →
  Str.replace_from (String "<" tag) new 0 (t +:+ rest) =
    t +:+ Str.replace_from (String "<" tag) new 0 rest.
Proof.
  induction t as [|c t IH]; [done|].
  cbn [plain]. intros [Hc Ht]%andb_true_iff.
  change (String c t +:+ rest) with (String c (t +:+ rest)).
  rewrite replace_from_copy.
  - rewrite IH by done. reflexivity.
  - cbn [Str.startswith]. by apply negb_true_iff in Hc as ->.
Qed.

(** The scan for [<p>] copies a closing tag. *)
Lemma replace_open_skips_close (rest : string) :
  Str.replace_from "<p>" "" 0 ("</p>" +:+ rest) =
    "</p>" +:+ Str.replace_from "<p>" "" 0 rest.
Proof.
  change ("</p>" +:+ rest) with (String "<" ("/p>" +:+ rest)).
  rewrite replace_from_copy by reflexivity.
  by rewrite (replace_from_plain "p>" "" "/p>").
Qed.

Lemma replace_open_paragraphs (ts : list string) :
  Forall (λ t, plain t = true) ts →
  Str.replace "<p>" "" (paragraphs ts) = joined ((λ t, t +:+ "</p>") <$> ts).
Proof.
  unfold Str.replace. induction 1 as [|t ts Ht _ IH]; [done|].
  cbn [paragraphs fmap list_fmap joined].
  rewrite replace_from_tag by done.
  change ("" +:+ ?x) with x.
  rewrite replace_from_plain, replace_open_skips_close, IH by done.
  by rewrite app_assoc_string.
Qed.

Lemma replace_close_paragraphs (ts : list string) :
  Forall (λ t, plain t = true) ts →
  Str.replace "</p>" "" (joined ((λ t, t +:+ "</p>") <$> ts)) = joined ts.
Proof.
  unfold Str.replace. induction 1 as [|t ts Ht _ IH]; [done|].
  cbn [fmap list_fmap joined].
  rewrite app_assoc_string, replace_from_plain by done.
  rewrite replace_from_tag by done.
  change ("" +:+ ?x) with x. by rewrite IH.
Qed.

(** The two replacements remove every tag of a text made of paragraphs. *)
Lemma strip_markup_paragraphs (ts : list string) :
  Forall (λ t, plain t = true) ts → strip_markup (paragraphs ts) = joined ts.
Proof.
  intros Hts. unfold strip_markup.
  by rewrite replace_open_paragraphs, replace_close_paragraphs.
Qed.

(** ** Role extraction *)

(** On a text the guarded replacement is the replacement. *)
Lemma strip_tag_text (tag text : string) :
  strip_tag tag (VStr text) = Ok (VStr (Str.replace tag "" text)).
Proof.
  unfold strip_tag. cbn [py_in mbind result_bind].
  destruct (Str.contains tag text) eqn:E; [done|].
  by rewrite replace_absent.
Qed.

(** What is not a text does not get through the stripping and the
    lower-casing: the body raises on it. *)
Lemma strip_tag_other (tag : string) (v : value) :
  strip_tag tag v = Ok v ∨ raises (strip_tag tag v) ∨ ∃ text, v = VStr text.
Proof.
  destruct v; unfold strip_tag, raises; cbn [py_in mbind result_bind];
    eauto; (destruct (_ : bool); cbn [py_replace]; eauto).
Qed.

Lemma get_roles_body_entry (user_role : string) (roles : list string)
    (description : value) (text : string) :
  entry_has description "technical-info" text →
  get_roles_body user_role roles description =
    Ok (if String.eqb (Str.lower (strip_markup text)) user_role
        then roles ++ [strip_markup text] else roles).
Proof.
  intros (e & t & -> & He & Ht & Hd). unfold get_roles_body.
  py_step. rewrite He. py_step.
  rewrite Ht, Hd. py_step. rewrite String.eqb_refl.
  rewrite strip_tag_text. py_step. rewrite strip_tag_text. py_step.
  fold (strip_markup text). by destruct (String.eqb _ user_role).
Qed.

(** An entry of another type is passed over; its description is not read. *)
Lemma get_roles_body_other_type (user_role : string) (roles : list string)
    (e t : gmap string value) (id : string) :
  e !! "type" = Some (VDict t) → t !! "id" = Some (VStr id) →
  id ≠ "technical-info" →
  get_roles_body user_role roles (VDict e) = Ok roles.
Proof.
  intros He Ht Hid. unfold get_roles_body.
  py_step. rewrite He. py_step.
  rewrite Ht. py_step.
  by apply String.eqb_neq in Hid as ->.
Qed.

Lemma get_roles_body_lacks_type (user_role : string) (roles : list string)
    (description : value) :
  lacks_type description →
  get_roles_body user_role roles description = Raise AttributeError.
Proof.
  intros (e & -> & He). unfold get_roles_body.
  py_step. by rewrite He.
Qed.

Lemma get_roles_body_lacks_description (user_role : string) (roles : list string)
    (description : value) :
  lacks_description description →
  get_roles_body user_role roles description = Raise TypeError.
Proof.
  intros (e & t & -> & He & Ht & Hd). unfold get_roles_body.
  py_step. rewrite He. py_step.
  rewrite Ht, Hd. py_step. by rewrite String.eqb_refl.
Qed.

(** The body appends to the roles found so far, or leaves them. *)
Lemma get_roles_body_acc (user_role : string) (roles : list string)
    (description : value) :
  match get_roles_body user_role [] description with
  | Ok found => get_roles_body user_role roles description = Ok (roles ++ found)
  | Raise e => get_roles_body user_role roles description = Raise e
  end.
Proof.
  unfold get_roles_body.
  destruct (py_get description "type" VNone) as [ty|]; [|done].
  cbn [mbind result_bind].
  destruct (py_get ty "id" VNone) as [id|]; [|done].
  cbn [mbind result_bind].
  destruct (py_eq_str id "technical-info"); [|by rewrite app_nil_r].
  destruct (py_get description "description" VNone) as [r0|]; [|done].
  cbn [mbind result_bind].
  destruct (strip_tag "<p>" r0) as [r1|]; [|done].
  cbn [mbind result_bind].
  destruct (strip_tag "</p>" r1) as [r2|]; [|done].
  cbn [mbind result_bind].
  destruct (py_lower r2) as [low|]; [|done].
  cbn [mbind result_bind].
  destruct r2; try done.
  destruct (String.eqb low user_role); [done|by rewrite app_nil_r].
Qed.

Lemma get_roles_loop_acc (user_role : string) (descriptions : list value)
    (roles : list string) :
  match get_roles_loop user_role descriptions [] with
  | Ok found => get_roles_loop user_role descriptions roles = Ok (roles ++ found)
  | Raise e => get_roles_loop user_role descriptions roles = Raise e
  end.
Proof.
  revert roles. induction descriptions as [|d l IH]; intros roles.
  - cbn. by rewrite app_nil_r.
  - cbn [get_roles_loop].
    pose proof (get_roles_body_acc user_role roles d) as Hd.
    destruct (get_roles_body user_role [] d) as [found|e]; rewrite Hd;
      cbn [mbind result_bind]; [|done].
    pose proof (IH found) as Hf. pose proof (IH (roles ++ found)) as Hrf.
    destruct (get_roles_loop user_role l []) as [rest|e]; rewrite Hf, Hrf; [|done].
    by rewrite app_assoc.
Qed.

Lemma get_roles_loop_app (user_role : string) (before after : list value)
    (roles : list string) :
  get_roles_loop user_role (before ++ after) roles =
    get_roles_loop user_role before roles ≫= get_roles_loop user_role after.
Proof.
  revert roles. induction before as [|d l IH]; intros roles; [done|].
  cbn [app get_roles_loop].
  destruct (get_roles_body user_role roles d); cbn [mbind result_bind]; [|done].
  apply IH.
Qed.

(** One description on which the body raises makes the whole loop raise. *)
Lemma get_roles_loop_raises (user_role : string) (descriptions : list value)
    (description : value) (roles : list string) :
  description ∈ descriptions →
  (∀ roles', raises (get_roles_body user_role roles' description)) →
  raises (get_roles_loop user_role descriptions roles).
Proof.
  intros Hin Hbody. revert roles.
  induction descriptions as [|d l IH]; intros roles; [by apply elem_of_nil in Hin|].
  cbn [get_roles_loop]. apply elem_of_cons in Hin as [<-|Hin].
  - destruct (Hbody roles) as [e ->]. by exists e.
  - destruct (get_roles_body user_role roles d) as [roles'|e];
      cbn [mbind result_bind]; [by apply IH|by exists e].
Qed.

(** [get_roles] runs the loop over the record's descriptions. *)
Lemma get_roles_descriptions (record : value) (descriptions : list value)
    (user_role : string) :
  descriptions_of record = Some descriptions →
  get_roles record user_role = get_roles_loop user_role descriptions [].
Proof.
  unfold descriptions_of, get_roles. destruct record as [| | | | |r]; try done.
  py_step.
  destruct (r !! "metadata") as [[| | | | |m]|]; try done.
  py_step.
  destruct (m !! "additional_descriptions") as [[| | | |l|]|]; try done.
  by intros [= ->].
Qed.

Lemma descriptions_of_record_with (descriptions : list value) :
  descriptions_of (record_with descriptions) = Some descriptions.
Proof. reflexivity. Qed.

Lemma entry_has_description_entry (id text : string) :
  entry_has (description_entry id text) id text.
Proof.
  eexists _, _. split; [reflexivity|]. by repeat split.
Qed.

(** ** The conditional generator *)

Lemma truthy_dict (r : gmap string value) (k : string) (v : value) :
  r !! k = Some v → truthy (VDict r) = true.
Proof.
  intros Hk. cbn [truthy].
  destruct (map_to_list r) eqn:E; [|done].
  apply map_to_list_empty_iff in E as ->. by rewrite lookup_empty in Hk.
Qed.

Lemma py_eq_str_false (v : value) (s : string) :
  v ≠ VStr s → py_eq_str v s = false.
Proof.
  destruct v as [| | |t| |]; try done. intros Hv. cbn.
  apply String.eqb_neq. congruence.
Qed.

(** C9: for every field name and every pair of branch lists,
    [IfRestricted(field, then_, else_).needs(None)] returns the empty
    list. *)
Theorem IfRestricted_needs_None (field : string) (then_ else_ : list Generator) :
  IfRestricted.needs (IfRestricted.init field then_ else_) VNone = Ok [].
Proof. reflexivity. Qed.

(** C10: [IfRestricted.needs] returns the empty list for every falsy
    record ([{}], [0], [""], [[]], [False] as well as [None]), whatever
    the field and the branch lists are: neither the access mapping nor a
    branch generator is reached, since reading the first would raise on a
    record that is no dictionary and the second on an empty branch. *)
Theorem IfRestricted_needs_falsy (self : IfRestricted.t) (record : value) :
  truthy record = false → IfRestricted.needs self record = Ok [].
Proof. intros Hr. unfold IfRestricted.needs. by rewrite Hr. Qed.

Lemma IfRestricted_needs_falsy_witness :
  truthy (VDict ∅) = false ∧
  IfRestricted.needs (IfRestricted.init "record" [] []) (VDict ∅) = Ok [].
Proof.
  split; [reflexivity|].
  apply (IfRestricted_needs_falsy (IfRestricted.init "record" [] []) (VDict ∅)).
  reflexivity.
Defined.


(** C1: what the code does where the claim has [A.needs(record)]. On a
    restricted record the result is not what the [then_] generator gives
    for that record (nothing) but what it gives with no record at all, the
    answer for a create; a record with no restriction state for the field
    is sent to the [then_] branch and gets the same answer. *)
Lemma IfRestricted_needs_drops_record :
  IfRestricted.needs
    (IfRestricted.init "record" [ProprietaryRecordPermissions.new] [AdminSuperUser.new])
    restricted_record = Ok [authenticated_user] ∧
  gen_needs ProprietaryRecordPermissions.new restricted_record = Ok [] ∧
  IfRestricted.needs
    (IfRestricted.init "record" [ProprietaryRecordPermissions.new] [AdminSuperUser.new])
    unmarked_record = Ok [authenticated_user] ∧
  gen_needs AdminSuperUser.new unmarked_record = Ok [superuser_access].
Proof. by vm_compute. Qed.

(** The call the code makes, for every record with an [access] mapping:
    the first generator of the chosen branch, with no argument. The record
    the rule is evaluated on does not reach it, and the generators after
    the first are not asked. *)
Theorem IfRestricted_needs_first_of_branch (field : string) (A B : Generator)
    (ta tb : list Generator) (r a : gmap string value) :
  r !! "access" = Some (VDict a) →
  let needs := IfRestricted.needs (IfRestricted.init field (A :: ta) (B :: tb)) (VDict r) in
  (a !! field = Some (VStr "restricted") → needs = gen_needs A VNone) ∧
  (a !! field = None → needs = gen_needs A VNone) ∧
  (∀ v, a !! field = Some v → v ≠ VStr "restricted" → needs = gen_needs B VNone).
Proof.
  intros Hr needs. subst needs. unfold IfRestricted.needs.
  rewrite (truthy_dict r _ _ Hr). py_step. rewrite Hr. py_step.
  cbn [IfRestricted.field IfRestricted.then_ IfRestricted.else_].
  split; [|split].
  - by intros ->.
  - by intros ->.
  - intros v -> Hv. py_step. by rewrite py_eq_str_false.
Qed.

(** ** The superuser generator *)

(** C8: for every identity, [AdminSuperUser().query_filter(identity)]
    returns the match-all query if and only if the superuser need is among
    the needs the identity provides, and the empty list otherwise. *)
Theorem AdminSuperUser_query_filter_iff (identity : Identity) :
  (AdminSuperUser.query_filter (Some identity) = Ok (Q "match_all") ↔
     superuser_access ∈ provides identity) ∧
  (AdminSuperUser.query_filter (Some identity) = Ok EmptyList ↔
     superuser_access ∉ provides identity).
Proof.
  unfold AdminSuperUser.query_filter.
  destruct (bool_decide_reflect (superuser_access ∈ provides identity));
    split; split; (done || congruence).
Qed.

(** ** Role extraction on records *)

(** C6, as the claim has it, fails for a record with no [metadata]:
    [record.get("metadata")] is [None], and the [.get] on it raises. *)
Lemma get_roles_without_metadata :
  get_roles bare_record "curator" = Raise AttributeError ∧
  get_roles (dict []) "curator" = Raise AttributeError.
Proof. by vm_compute. Qed.

(** C6, amended: for every record whose metadata is a mapping with no
    [additional_descriptions], [get_roles] takes the descriptions as the
    empty list and returns the empty list, for every role class. *)
Theorem get_roles_without_descriptions (r m : gmap string value)
    (user_role : string) :
  r !! "metadata" = Some (VDict m) →
  m !! "additional_descriptions" = None →
  get_roles (VDict r) user_role = Ok [].
Proof.
  intros Hr Hm. unfold get_roles. py_step. rewrite Hr. py_step.
  by rewrite Hm.
Qed.

Lemma get_roles_without_descriptions_witness :
  get_roles restricted_record "curator" = Ok [].
Proof.
  apply (get_roles_without_descriptions
           (list_to_map [("access", dict [("record", VStr "restricted")]);
                         ("metadata", dict [])]) ∅ "curator");
    reflexivity.
Defined.

(** C3, as the claim has it, fails: the text is compared in lower case
    but returned as it is stored, so the role found is ["Curator"]. *)
Lemma get_roles_keeps_case :
  get_roles curator_record "curator" = Ok ["Curator"] ∧
  get_roles curator_record "curator" ≠ Ok ["curator"].
Proof. by vm_compute. Qed.

(** C3, amended: for every record whose [additional_descriptions] holds an
    entry with [type.id == "technical-info"] and
    [description == "<p>Curator</p>"], and on whose other entries
    [get_roles] returns ([r1] on those before, [r2] on those after),
    [get_roles(record, "curator")] returns [r1 + ["Curator"] + r2]: the
    markup is stripped and the text keeps its case, the lower-casing serves
    the comparison only. With that entry alone the result is
    [["Curator"]]. *)
Theorem get_roles_curator_entry (record description : value)
    (before after : list value) (r1 r2 : list string) :
  descriptions_of record = Some (before ++ description :: after) →
  entry_has description "technical-info" "<p>Curator</p>" →
  get_roles (record_with before) "curator" = Ok r1 →
  get_roles (record_with after) "curator" = Ok r2 →
  get_roles record "curator" = Ok (r1 ++ "Curator" :: r2).
Proof.
  intros Hrec Hd H1 H2.
  rewrite (get_roles_descriptions _ _ _ (descriptions_of_record_with before)) in H1.
  rewrite (get_roles_descriptions _ _ _ (descriptions_of_record_with after)) in H2.
  rewrite (get_roles_descriptions _ _ _ Hrec), get_roles_loop_app, H1.
  cbn [mbind result_bind get_roles_loop].
  rewrite (get_roles_body_entry _ _ _ _ Hd).
  change (strip_markup "<p>Curator</p>") with "Curator".
  change (Str.lower "Curator") with "curator".
  rewrite String.eqb_refl. cbn [mbind result_bind].
  pose proof (get_roles_loop_acc "curator" after (r1 ++ ["Curator"])) as Hacc.
  rewrite H2 in Hacc. rewrite Hacc. by rewrite <- app_assoc.
Qed.

Lemma get_roles_curator_entry_witness :
  get_roles curator_record "curator" = Ok ["Curator"].
Proof.
  apply (get_roles_curator_entry curator_record
           (description_entry "technical-info" "<p>Curator</p>") [] [] [] []);
    [reflexivity|apply entry_has_description_entry|reflexivity|reflexivity].
Defined.

(** C5, as the claim has it, fails: [str.replace] without a count
    replaces every occurrence, so a role written over two paragraphs is
    found, which the removal of the first occurrence alone would leave as
    [cur<p>ator</p>]. *)
Lemma get_roles_strips_second_paragraph :
  get_roles two_paragraph_record "curator" = Ok ["curator"] ∧
  strip_markup "<p>cur</p><p>ator</p>" = "curator" ∧
  strip_first_only "<p>cur</p><p>ator</p>" = "cur<p>ator</p>".
Proof. by vm_compute. Qed.

(** C5, amended: in [get_roles] the stripping removes every occurrence of
    ["<p>"] and then every occurrence of ["</p>"] before the lower-cased
    comparison: a description of any number of paragraphs
    [<p>t1</p>...<p>tn</p>], the texts without [<], is compared, and
    returned, as [t1...tn]. *)
Theorem get_roles_strips_every_tag (record description : value)
    (ts : list string) (user_role : string) :
  Forall (λ t, plain t = true) ts →
  descriptions_of record = Some [description] →
  entry_has description "technical-info" (paragraphs ts) →
  get_roles record user_role =
    Ok (if String.eqb (Str.lower (joined ts)) user_role then [joined ts] else []).
Proof.
  intros Hts Hrec Hd.
  rewrite (get_roles_descriptions _ _ _ Hrec). cbn [get_roles_loop].
  rewrite (get_roles_body_entry _ _ _ _ Hd), strip_markup_paragraphs by done.
  cbn [mbind result_bind]. by destruct (String.eqb _ user_role).
Qed.

Lemma get_roles_strips_every_tag_witness :
  get_roles two_paragraph_record "curator" = Ok ["curator"].
Proof.
  apply (get_roles_strips_every_tag two_paragraph_record
           (description_entry "technical-info" "<p>cur</p><p>ator</p>")
           ["cur"; "ator"] "curator").
  - repeat constructor.
  - reflexivity.
  - apply (entry_has_description_entry "technical-info" "<p>cur</p><p>ator</p>").
Defined.

(** C4, as the claim has it, fails: an entry with no [type] is not passed
    over, the [.get("id")] on the missing type raises, out of [get_roles]
    and out of the generator's [needs]. *)
Lemma get_roles_untyped_entry_raises :
  get_roles untyped_entry_record "curator" = Raise AttributeError ∧
  Curator.needs untyped_entry_record = Raise AttributeError.
Proof. by vm_compute. Qed.

(** C4, amended: for every record with a description entry that has no
    [type], or has type ["technical-info"] and no [description],
    [get_roles] raises, for every role class, and so does the [needs] of
    each of the five per-role generators: nothing catches the exception.
    (Only an entry of another type is passed over, its description
    unread: [get_roles_body_other_type].) *)
Theorem get_roles_malformed_entry_raises (record description : value)
    (descriptions : list value) (user_role : string) :
  descriptions_of record = Some descriptions →
  description ∈ descriptions →
  lacks_type description ∨ lacks_description description →
  raises (get_roles record user_role) ∧
  raises (Depositor.needs record) ∧ raises (Viewer.needs record) ∧
  raises (RestrictedDataUser.needs record) ∧ raises (PublicViewer.needs record) ∧
  raises (Curator.needs record).
Proof.
  intros Hrec Hin Hbad.
  assert (Hall : ∀ u, raises (get_roles record u)).
  { intros u. rewrite (get_roles_descriptions _ _ _ Hrec).
    apply (get_roles_loop_raises u descriptions description); [done|].
    intros roles'. destruct Hbad as [Hbad|Hbad].
    - rewrite get_roles_body_lacks_type by done. by eexists.
    - rewrite get_roles_body_lacks_description by done. by eexists. }
  assert (Hneeds : ∀ u, raises (role_needs u record)).
  { intros u. destruct (Hall u) as [e He]. exists e.
    unfold role_needs. by rewrite He. }
  repeat split; (apply Hall || apply Hneeds).
Qed.

Lemma get_roles_malformed_entry_raises_witness :
  raises (get_roles untyped_entry_record "curator") ∧
  raises (Curator.needs untyped_entry_record).
Proof.
  pose proof (get_roles_malformed_entry_raises untyped_entry_record
                (dict [("description", VStr "<p>Curator</p>")])
                [dict [("description", VStr "<p>Curator</p>")]] "curator") as H.
  destruct H as (Hg & _ & _ & _ & _ & Hc).
  - reflexivity.
  - apply list_elem_of_here.
  - left. eexists. split; reflexivity.
  - exact (conj Hg Hc).
Defined.

(** ** The proprietary-record generator *)

Lemma needs_loop_no_claim (descriptions : list value) (needs : list Need) :
  ProprietaryRecordPermissions.needs_loop descriptions = Ok needs → needs = [].
Proof.
  induction descriptions as [|d l IH]; cbn [ProprietaryRecordPermissions.needs_loop].
  - by intros [= <-].
  - destruct (py_get d "type" VNone) as [ty|]; [|done]. cbn [mbind result_bind].
    destruct (py_eq_str ty "technical-info"); [|done].
    destruct (py_get d "description" VNone) as [r0|]; [|done].
    cbn [mbind result_bind].
    destruct (strip_tag "<p>" r0) as [r1|]; [|done]. cbn [mbind result_bind].
    destruct (strip_tag "</p>" r1) as [r2|]; [|done]. done.
Qed.

(** X12: whatever the record, [ProprietaryRecordPermissions.needs] returns no
    role need: where it returns, it is the authenticated-user need of a
    create, or nothing. *)
Lemma ProprietaryRecordPermissions_needs_no_role (record : value)
    (needs : list Need) :
  ProprietaryRecordPermissions.needs record = Ok needs →
  (record = VNone ∧ needs = [authenticated_user]) ∨ needs = [].
Proof.
  unfold ProprietaryRecordPermissions.needs.
  destruct record as [| | | | |r]; try done.
  - intros [= <-]. by left.
  - py_step. destruct (r !! "metadata") as [md|]; [|done]. py_step.
    destruct md as [| | | | |m]; try done. py_step.
    destruct (py_iter _) as [l|]; [|done]. cbn [mbind result_bind].
    intros ->%needs_loop_no_claim. by right.
Qed.

(** C2: what the code does on the inputs of the claim. Without a record
    it returns the authenticated-user need. On a record with a
    ["technical-info"] description as the data model has it, the type is
    compared with the text ["technical-info"] itself and never matches:
    the result is empty where the claim has the role need of [nyu]. Where
    the type is that text, the entry matches and [role.name], taken of the
    stripped text, raises. *)
Theorem ProprietaryRecordPermissions_needs_at_inputs :
  ProprietaryRecordPermissions.needs VNone = Ok [authenticated_user] ∧
  ProprietaryRecordPermissions.needs nyu_record = Ok [] ∧
  ProprietaryRecordPermissions.needs nyu_flat_record = Raise AttributeError ∧
  get_roles nyu_record "nyu" = Ok ["nyu"].
Proof. by vm_compute. Qed.

(** * Further properties of the module *)

(** ** What [get_roles] returns *)

Lemma lower_char_idem (c : ascii) :
  Str.lower_char (Str.lower_char c) = Str.lower_char c.
Proof. destruct c as [[] [] [] [] [] [] [] []]; reflexivity. Qed.

Lemma lower_idem (s : string) : Str.lower (Str.lower s) = Str.lower s.
Proof.
  induction s as [|c s IH]; [done|].
  cbn [Str.lower]. by rewrite lower_char_idem, IH.
Qed.

(** The body keeps the roles found so far, or appends one text that reads
    as the role class in lower case. *)
Lemma get_roles_body_inv (user_role : string) (roles roles' : list string)
    (description : value) :
  get_roles_body user_role roles description = Ok roles' →
  roles' = roles ∨
  ∃ text, roles' = roles ++ [text] ∧ Str.lower text = user_role.
Proof.
  unfold get_roles_body.
  destruct (py_get description "type" VNone) as [ty|]; [|done].
  cbn [mbind result_bind].
  destruct (py_get ty "id" VNone) as [id|]; [|done].
  cbn [mbind result_bind].
  destruct (py_eq_str id "technical-info"); [|intros [= <-]; by left].
  destruct (py_get description "description" VNone) as [r0|]; [|done].
  cbn [mbind result_bind].
  destruct (strip_tag "<p>" r0) as [r1|]; [|done]. cbn [mbind result_bind].
  destruct (strip_tag "</p>" r1) as [r2|]; [|done]. cbn [mbind result_bind].
  destruct r2 as [| | |text| |]; try done. py_step.
  destruct (String.eqb (Str.lower text) user_role) eqn:E; intros [= <-].
  - right. exists text. split; [done|]. by apply String.eqb_eq.
  - by left.
Qed.

Lemma get_roles_loop_inv (user_role : string) (descriptions : list value)
    (roles roles' : list string) :
  get_roles_loop user_role descriptions roles = Ok roles' →
  ∃ found, roles' = roles ++ found ∧
           Forall (λ text, Str.lower text = user_role) found ∧
           length found ≤ length descriptions.
Proof.
  revert roles. induction descriptions as [|d l IH]; intros roles.
  - intros [= <-]. exists []. by rewrite app_nil_r.
  - cbn [get_roles_loop].
    destruct (get_roles_body user_role roles d) as [mid|] eqn:Hd; [|done].
    cbn [mbind result_bind]. intros (found & -> & Hall & Hlen)%IH.
    apply get_roles_body_inv in Hd as [->|(text & -> & Htext)].
    + exists found. repeat split; [done|]. cbn [length]. lia.
    + exists (text :: found). rewrite <- app_assoc.
      repeat split; [by constructor|]. cbn [length]. lia.
Qed.

(** Where [get_roles] returns, it has run its loop over some list. *)
Lemma get_roles_inv (record : value) (user_role : string) (roles : list string) :
  get_roles record user_role = Ok roles →
  ∃ descriptions, get_roles_loop user_role descriptions [] = Ok roles.
Proof.
  unfold get_roles.
  destruct (py_get record "metadata" VNone) as [md|]; [|done].
  cbn [mbind result_bind].
  destruct (py_get md "additional_descriptions" (VList [])) as [ad|]; [|done].
  cbn [mbind result_bind].
  destruct (py_iter ad) as [l|]; [|done]. cbn [mbind result_bind]. eauto.
Qed.

(** X1: every role [get_roles] returns reads as the requested role class
    once lower-cased, whatever the record. *)
Theorem get_roles_all_match (record : value) (user_role : string)
    (roles : list string) :
  get_roles record user_role = Ok roles →
  Forall (λ text, Str.lower text = user_role) roles.
Proof.
  intros (l & Hl)%get_roles_inv.
  by apply get_roles_loop_inv in Hl as (found & -> & Hall & _).
Qed.

Lemma get_roles_all_match_witness :
  Forall (λ text, Str.lower text = "viewer") ["Viewer"; "VIEWER"].
Proof.
  apply (get_roles_all_match shared_record "viewer" ["Viewer"; "VIEWER"]).
  reflexivity.
Defined.

(** X2: a role class that is not in lower case is never found: the stored
    text is lower-cased before the comparison, the class is not. *)
Theorem get_roles_upper_class_finds_nothing (record : value)
    (user_role : string) (roles : list string) :
  Str.lower user_role ≠ user_role →
  get_roles record user_role = Ok roles → roles = [].
Proof.
  intros Hu Hall%get_roles_all_match.
  destruct roles as [|text roles]; [done|].
  apply Forall_cons in Hall as [Htext _].
  destruct Hu. by rewrite <- Htext, lower_idem.
Qed.

Lemma get_roles_upper_class_finds_nothing_witness :
  get_roles shared_record "Viewer" = Ok [] ∧ ([] : list string) = [].
Proof.
  split; [reflexivity|].
  apply (get_roles_upper_class_finds_nothing shared_record "Viewer" []);
    [discriminate|reflexivity].
Defined.

(** X3: [get_roles] returns at most one role per description. *)
Theorem get_roles_at_most_one_each (record : value) (descriptions : list value)
    (user_role : string) (roles : list string) :
  descriptions_of record = Some descriptions →
  get_roles record user_role = Ok roles →
  length roles ≤ length descriptions.
Proof.
  intros Hrec. rewrite (get_roles_descriptions _ _ _ Hrec).
  by intros (found & -> & _ & Hlen)%get_roles_loop_inv.
Qed.

Lemma get_roles_at_most_one_each_witness : length ["Viewer"; "VIEWER"] ≤ 4.
Proof.
  apply (get_roles_at_most_one_each shared_record
           [description_entry "technical-info" "<p>Viewer</p>";
            description_entry "abstract" "<p>viewer</p>";
            description_entry "technical-info" "depositor";
            description_entry "technical-info" "VIEWER"]
           "viewer" ["Viewer"; "VIEWER"]); reflexivity.
Defined.

(** X4: the roles of a list of descriptions are those of its first part
    followed by those of the rest: stored order is kept and a role found
    twice is returned twice. *)
Theorem get_roles_app (record : value) (before after : list value)
    (user_role : string) (r1 r2 : list string) :
  descriptions_of record = Some (before ++ after) →
  get_roles (record_with before) user_role = Ok r1 →
  get_roles (record_with after) user_role = Ok r2 →
  get_roles record user_role = Ok (r1 ++ r2).
Proof.
  intros Hrec H1 H2.
  rewrite (get_roles_descriptions _ _ _ (descriptions_of_record_with before)) in H1.
  rewrite (get_roles_descriptions _ _ _ (descriptions_of_record_with after)) in H2.
  rewrite (get_roles_descriptions _ _ _ Hrec), get_roles_loop_app, H1.
  cbn [mbind result_bind].
  pose proof (get_roles_loop_acc user_role after r1) as Hacc.
  by rewrite H2 in Hacc.
Qed.

Lemma get_roles_app_witness :
  get_roles
    (record_with ([description_entry "technical-info" "<p>Viewer</p>"] ++
                  [description_entry "technical-info" "Viewer"]))
    "viewer" = Ok (["Viewer"] ++ ["Viewer"]).
Proof.
  apply (get_roles_app _ [description_entry "technical-info" "<p>Viewer</p>"]
           [description_entry "technical-info" "Viewer"] "viewer");
    reflexivity.
Defined.

Lemma py_eq_str_default_false (o : option value) (s : string) :
  o ≠ Some (VStr s) → py_eq_str (default VNone o) s = false.
Proof.
  destruct o as [v|]; [|done]. intros Ho. apply py_eq_str_false.
  cbn. intros ->. by apply Ho.
Qed.

Lemma get_roles_loop_other_types (user_role : string)
    (descriptions : list value) (roles : list string) :
  Forall other_type descriptions →
  get_roles_loop user_role descriptions roles = Ok roles.
Proof.
  induction 1 as [|d l (e & t & -> & He & Ht) _ IH]; [done|].
  cbn [get_roles_loop]. unfold get_roles_body. py_step. rewrite He. py_step.
  by rewrite py_eq_str_default_false.
Qed.

(** X5: descriptions of another type contribute nothing, whatever their
    description holds, even none: a record with only such entries has no
    role of any class. *)
Theorem get_roles_other_types (record : value) (descriptions : list value)
    (user_role : string) :
  descriptions_of record = Some descriptions →
  Forall other_type descriptions →
  get_roles record user_role = Ok [].
Proof.
  intros Hrec Hall. rewrite (get_roles_descriptions _ _ _ Hrec).
  by apply get_roles_loop_other_types.
Qed.

Lemma get_roles_other_types_witness :
  get_roles
    (record_with [description_entry "abstract" "<p>viewer</p>";
                  dict [("type", dict [("id", VStr "methods")])];
                  dict [("type", dict [])]])
    "viewer" = Ok [].
Proof.
  apply (get_roles_other_types _
           [description_entry "abstract" "<p>viewer</p>";
            dict [("type", dict [("id", VStr "methods")])];
            dict [("type", dict [])]] "viewer"); [reflexivity|].
  repeat constructor; eexists _, _; (split; [reflexivity|]); by split.
Defined.

(** ** The per-role generators *)

(** X6: each per-role generator asks for role needs only, one per role
    found and in that order, and each name reads as the generator's role
    class in lower case. *)
Theorem role_generators_need_their_class (record : value) (needs : list Need) :
  (Depositor.needs record = Ok needs → Forall (role_need_of "depositor") needs) ∧
  (Viewer.needs record = Ok needs → Forall (role_need_of "viewer") needs) ∧
  (RestrictedDataUser.needs record = Ok needs →
     Forall (role_need_of "restricted_data_user") needs) ∧
  (PublicViewer.needs record = Ok needs →
     Forall (role_need_of "public_viewer") needs) ∧
  (Curator.needs record = Ok needs → Forall (role_need_of "curator") needs).
Proof.
  assert (H : ∀ u, role_needs u record = Ok needs → Forall (role_need_of u) needs).
  { intros u. unfold role_needs.
    destruct (get_roles record u) as [roles|] eqn:Hr; [|done].
    cbn [mbind result_bind]. apply get_roles_all_match in Hr.
    destruct (length roles =? 0)%nat; intros [= <-]; [constructor|].
    apply Forall_fmap. eapply Forall_impl; [exact Hr|]. by split. }
  repeat split; apply H.
Qed.

(** X7: on a record whose metadata has no [additional_descriptions], or an
    empty list of them, every per-role generator asks for nothing. *)
Theorem role_generators_without_descriptions (r m : gmap string value) :
  r !! "metadata" = Some (VDict m) →
  m !! "additional_descriptions" = None ∨
  m !! "additional_descriptions" = Some (VList []) →
  Depositor.needs (VDict r) = Ok [] ∧ Viewer.needs (VDict r) = Ok [] ∧
  RestrictedDataUser.needs (VDict r) = Ok [] ∧
  PublicViewer.needs (VDict r) = Ok [] ∧ Curator.needs (VDict r) = Ok [].
Proof.
  intros Hr Hm.
  assert (H : ∀ u, role_needs u (VDict r) = Ok []).
  { intros u. unfold role_needs, get_roles. py_step. rewrite Hr. py_step.
    by destruct Hm as [-> | ->]. }
  repeat split; apply H.
Qed.

Lemma role_generators_without_descriptions_witness :
  Viewer.needs restricted_record = Ok [].
Proof.
  refine (proj1 (proj2 (role_generators_without_descriptions
            (list_to_map [("access", dict [("record", VStr "restricted")]);
                          ("metadata", dict [])]) ∅ _ _)));
    [reflexivity|by left].
Defined.

Lemma role_generators_need_their_class_witness :
  Forall (role_need_of "viewer") [RoleNeed "Viewer"; RoleNeed "VIEWER"].
Proof.
  apply (proj1 (proj2 (role_generators_need_their_class shared_record
                         [RoleNeed "Viewer"; RoleNeed "VIEWER"]))).
  reflexivity.
Defined.

(** ** More on the conditional generator *)

(** On a record with an [access] mapping, [needs] is decided by the
    restriction state of the field alone. *)
Lemma IfRestricted_needs_access (self : IfRestricted.t) (r a : gmap string value) :
  r !! "access" = Some (VDict a) →
  IfRestricted.needs self (VDict r) =
    if py_eq_str (default (VStr "restricted") (a !! IfRestricted.field self))
         "restricted"
    then IfRestricted.first_needs (IfRestricted.then_ self)
    else IfRestricted.first_needs (IfRestricted.else_ self).
Proof.
  intros Hr. unfold IfRestricted.needs.
  rewrite (truthy_dict r _ _ Hr). py_step. by rewrite Hr.
Qed.

(** X8: a per-role generator called with no record raises: so an
    [IfRestricted] whose [then_] list starts with one raises
    [AttributeError] on every record whose field is restricted or has no
    restriction state, whatever the role class and the other generators. *)
Theorem IfRestricted_role_generator_raises (field user_role : string)
    (rest else_ : list Generator) (r a : gmap string value) :
  r !! "access" = Some (VDict a) →
  a !! field = None ∨ a !! field = Some (VStr "restricted") →
  IfRestricted.needs
    (IfRestricted.init field (mkGenerator (role_needs user_role) :: rest) else_)
    (VDict r) = Raise AttributeError.
Proof.
  intros Hr Ha. rewrite (IfRestricted_needs_access _ r a Hr).
  cbn [IfRestricted.field IfRestricted.then_].
  by destruct Ha as [-> | ->].
Qed.

Lemma IfRestricted_role_generator_raises_witness :
  IfRestricted.needs
    (IfRestricted.init "record" [Curator.new; AdminSuperUser.new] [])
    restricted_record = Raise AttributeError.
Proof.
  apply (IfRestricted_role_generator_raises "record" "curator"
           [AdminSuperUser.new] []
           (list_to_map [("access", dict [("record", VStr "restricted")]);
                         ("metadata", dict [])])
           (list_to_map [("record", VStr "restricted")]));
    [reflexivity|by right].
Defined.

(** X9: with an empty [then_] list, [needs] raises [IndexError] on every
    record whose field is restricted or has no restriction state. *)
Theorem IfRestricted_empty_branch_raises (field : string)
    (else_ : list Generator) (r a : gmap string value) :
  r !! "access" = Some (VDict a) →
  a !! field = None ∨ a !! field = Some (VStr "restricted") →
  IfRestricted.needs (IfRestricted.init field [] else_) (VDict r) =
    Raise IndexError.
Proof.
  intros Hr Ha. rewrite (IfRestricted_needs_access _ r a Hr).
  cbn [IfRestricted.field IfRestricted.then_].
  by destruct Ha as [-> | ->].
Qed.

Lemma IfRestricted_empty_branch_raises_witness :
  IfRestricted.needs (IfRestricted.init "files" [] [AdminSuperUser.new])
    restricted_record = Raise IndexError.
Proof.
  apply (IfRestricted_empty_branch_raises "files" [AdminSuperUser.new]
           (list_to_map [("access", dict [("record", VStr "restricted")]);
                         ("metadata", dict [])])
           (list_to_map [("record", VStr "restricted")]));
    [reflexivity|by left].
Defined.

(** X10: a non-empty record with no [access] key at all is taken as
    restricted: [needs] returns the needs of the first generator of
    [then_], called with no record, and raises [IndexError] where [then_]
    is empty; [else_] plays no part. *)
Theorem IfRestricted_needs_without_access (field : string)
    (then_ else_ : list Generator) (r : gmap string value) :
  r ≠ ∅ → r !! "access" = None →
  IfRestricted.needs (IfRestricted.init field then_ else_) (VDict r) =
    match then_ with
    | A :: _ => gen_needs A VNone
    | [] => Raise IndexError
    end.
Proof.
  intros Hne Hr. unfold IfRestricted.needs. cbn [truthy].
  destruct (map_to_list r) eqn:E; [by apply map_to_list_empty_iff in E|].
  py_step. rewrite Hr. py_step. rewrite lookup_empty. py_step.
  cbn [IfRestricted.then_]. by destruct then_.
Qed.

Lemma IfRestricted_needs_without_access_witness :
  IfRestricted.needs
    (IfRestricted.init "record" [AdminSuperUser.new] [ProprietaryRecordPermissions.new])
    curator_record = Ok [superuser_access].
Proof.
  apply (IfRestricted_needs_without_access "record" [AdminSuperUser.new]
           [ProprietaryRecordPermissions.new]
           (list_to_map [("metadata",
              dict [("additional_descriptions",
                     VList [description_entry "technical-info" "<p>Curator</p>"])])]));
    [|reflexivity].
  intros H. apply (f_equal (λ m : gmap string value, m !! "metadata")) in H.
  vm_compute in H. discriminate H.
Defined.

(** X11: where [access] is present and is no mapping, [needs] raises
    [AttributeError], whatever the branches. *)
Theorem IfRestricted_needs_access_not_mapping (self : IfRestricted.t)
    (r : gmap string value) (v : value) :
  r !! "access" = Some v → (∀ a, v ≠ VDict a) →
  IfRestricted.needs self (VDict r) = Raise AttributeError.
Proof.
  intros Hr Hv. unfold IfRestricted.needs.
  rewrite (truthy_dict r _ _ Hr). py_step. rewrite Hr. py_step.
  destruct v; try done. by destruct (Hv d).
Qed.

Lemma IfRestricted_needs_access_not_mapping_witness :
  IfRestricted.needs (IfRestricted.init "record" [AdminSuperUser.new] [])
    text_access_record = Raise AttributeError.
Proof.
  apply (IfRestricted_needs_access_not_mapping
           (IfRestricted.init "record" [AdminSuperUser.new] [])
           (list_to_map [("access", VStr "restricted"); ("metadata", dict [])])
           (VStr "restricted")); [reflexivity|discriminate].
Defined.

(** ** More on the proprietary-record generator *)

Lemma ProprietaryRecordPermissions_needs_no_role_witness :
  (nyu_record = VNone ∧ [] = [authenticated_user]) ∨ ([] : list Need) = [].
Proof.
  apply (ProprietaryRecordPermissions_needs_no_role nyu_record []).
  reflexivity.
Defined.

Lemma ProprietaryRecordPermissions_needs_descriptions (record : value)
    (descriptions : list value) :
  descriptions_of record = Some descriptions →
  ProprietaryRecordPermissions.needs record =
    ProprietaryRecordPermissions.needs_loop descriptions.
Proof.
  unfold descriptions_of, ProprietaryRecordPermissions.needs.
  destruct record as [| | | | |r]; try done. py_step.
  destruct (r !! "metadata") as [[| | | | |m]|]; try done. py_step.
  destruct (m !! "additional_descriptions") as [[| | | |l|]|]; try done.
  by intros [= ->].
Qed.

(** X13: descriptions whose [type] is anything but the text
    ["technical-info"] (a mapping with an [id], as the data model has it,
    or missing) are never matched: [needs] asks for nothing. *)
Theorem ProprietaryRecordPermissions_needs_unmatched (record : value)
    (descriptions : list value) :
  descriptions_of record = Some descriptions →
  Forall type_not_text descriptions →
  ProprietaryRecordPermissions.needs record = Ok [].
Proof.
  intros Hrec Hall.
  rewrite (ProprietaryRecordPermissions_needs_descriptions _ _ Hrec).
  clear Hrec. induction Hall as [|d l (e & -> & He) _ IH]; [done|].
  cbn [ProprietaryRecordPermissions.needs_loop]. py_step.
  by rewrite py_eq_str_default_false.
Qed.

Lemma ProprietaryRecordPermissions_needs_unmatched_witness :
  ProprietaryRecordPermissions.needs shared_record = Ok [].
Proof.
  apply (ProprietaryRecordPermissions_needs_unmatched shared_record
           [description_entry "technical-info" "<p>Viewer</p>";
            description_entry "abstract" "<p>viewer</p>";
            description_entry "technical-info" "depositor";
            description_entry "technical-info" "VIEWER"]); [reflexivity|].
  repeat constructor; eexists; (split; [reflexivity|]); discriminate.
Defined.

(** A description whose type is the text ["technical-info"] makes the loop
    raise, whatever its description holds. *)
Lemma needs_loop_matched_raises (e : gmap string value) (rest : list value) :
  e !! "type" = Some (VStr "technical-info") →
  raises (ProprietaryRecordPermissions.needs_loop (VDict e :: rest)).
Proof.
  intros He. cbn [ProprietaryRecordPermissions.needs_loop]. py_step.
  rewrite He. py_step. cbn [String.eqb Ascii.eqb Bool.eqb].
  destruct (strip_tag "<p>" _) as [r1|e1]; [|by exists e1].
  cbn [mbind result_bind].
  destruct (strip_tag "</p>" r1) as [r2|e2]; [|by exists e2].
  by exists AttributeError.
Qed.

(** X14: a record with a description whose [type] is the text
    ["technical-info"] makes [needs] raise: no record at all yields a role
    need. *)
Theorem ProprietaryRecordPermissions_needs_matched_raises (record : value)
    (descriptions : list value) (description : value) :
  descriptions_of record = Some descriptions →
  description ∈ descriptions →
  type_is_text description →
  raises (ProprietaryRecordPermissions.needs record).
Proof.
  intros Hrec Hin (e & -> & He).
  rewrite (ProprietaryRecordPermissions_needs_descriptions _ _ Hrec).
  clear Hrec. induction descriptions as [|d l IH]; [by apply elem_of_nil in Hin|].
  apply elem_of_cons in Hin as [<-|Hin]; [by apply needs_loop_matched_raises|].
  cbn [ProprietaryRecordPermissions.needs_loop].
  destruct (py_get d "type" VNone) as [ty|e1] eqn:Hd; [|by exists e1].
  cbn [mbind result_bind].
  destruct (py_eq_str ty "technical-info") eqn:Hty; [|by apply IH].
  destruct d as [| | | | |e']; try done.
  destruct ty as [| | |t| |]; try done.
  apply String.eqb_eq in Hty as ->.
  pose proof (needs_loop_matched_raises e' l) as Hm.
  cbn [ProprietaryRecordPermissions.needs_loop] in Hm. rewrite Hd in Hm.
  apply Hm. cbn in Hd. destruct (e' !! "type"); [|done].
  cbn in Hd. congruence.
Qed.

Lemma ProprietaryRecordPermissions_needs_matched_raises_witness :
  raises (ProprietaryRecordPermissions.needs nyu_flat_record).
Proof.
  apply (ProprietaryRecordPermissions_needs_matched_raises nyu_flat_record
           [dict [("type", VStr "technical-info"); ("description", VStr "<p>nyu</p>")]]
           (dict [("type", VStr "technical-info"); ("description", VStr "<p>nyu</p>")]));
    [reflexivity|apply list_elem_of_here|].
  eexists. split; reflexivity.
Defined.

(** ** The read rules of the policy tables *)

Lemma read_rule_needs (field : string) (A B : Generator)
    (ta tb : list Generator) (r a : gmap string value) :
  r !! "access" = Some (VDict a) →
  rule_needs [IfRestricted.new field (A :: ta) (B :: tb)] (VDict r) =
    [if py_eq_str (default (VStr "restricted") (a !! field)) "restricted"
     then gen_needs A VNone else gen_needs B VNone].
Proof.
  intros Hr. cbn [rule_needs fmap list_fmap IfRestricted.new gen_needs].
  rewrite (IfRestricted_needs_access _ r a Hr).
  cbn [IfRestricted.field IfRestricted.then_ IfRestricted.else_].
  by destruct (py_eq_str _ _).
Qed.

(** X15: in [NYURecordPermissionPolicy] and
    [DataUseRecordPermissionPolicy], the needs of [can_read] (and of
    [can_read_files]) for a record whose [record] (resp. [files]) state is
    ["restricted"] or missing are those [RecordOwners] gives with no
    record: of the generators of [can_view] only the first is asked, the
    role generators, the secret links and the superuser generator are
    not. *)
Theorem read_rules_restricted (F : Framework) (r a : gmap string value) :
  r !! "access" = Some (VDict a) →
  (a !! "record" = None ∨ a !! "record" = Some (VStr "restricted") →
     rule_needs (NYURecordPermissionPolicy.can_read F) (VDict r) =
       [gen_needs (RecordOwners F) VNone] ∧
     rule_needs (DataUseRecordPermissionPolicy.can_read F) (VDict r) =
       [gen_needs (RecordOwners F) VNone]) ∧
  (a !! "files" = None ∨ a !! "files" = Some (VStr "restricted") →
     rule_needs (NYURecordPermissionPolicy.can_read_files F) (VDict r) =
       [gen_needs (RecordOwners F) VNone] ∧
     rule_needs (DataUseRecordPermissionPolicy.can_read_files F) (VDict r) =
       [gen_needs (RecordOwners F) VNone]).
Proof.
  intros Hr.
  unfold NYURecordPermissionPolicy.can_read, NYURecordPermissionPolicy.can_read_files,
    DataUseRecordPermissionPolicy.can_read, DataUseRecordPermissionPolicy.can_read_files,
    NYURecordPermissionPolicy.can_view, DataUseRecordPermissionPolicy.can_view,
    NYURecordPermissionPolicy.can_manage, DataUseRecordPermissionPolicy.can_manage,
    NYURecordPermissionPolicy.can_all, DataUseRecordPermissionPolicy.can_all.
  cbn [app]. rewrite !(read_rule_needs _ _ _ _ _ r a Hr).
  split; intros [-> | ->]; by split.
Qed.

Lemma read_rules_restricted_witness :
  rule_needs (NYURecordPermissionPolicy.can_read_files sample_framework)
    files_restricted_record = [Ok [authenticated_user]].
Proof.
  refine (proj1 (proj2 (read_rules_restricted sample_framework
            (list_to_map [("access", dict [("record", VStr "public");
                                           ("files", VStr "restricted")]);
                          ("metadata", dict [])])
            (list_to_map [("record", VStr "public"); ("files", VStr "restricted")])
            _) _)); [reflexivity|by right].
Defined.

(** X16: for a record whose [record] (resp. [files]) state is present
    and is not ["restricted"], the needs of [can_read] (resp.
    [can_read_files]) in both policies are those [AnyUser] gives with no
    record. *)
Theorem read_rules_open (F : Framework) (r a : gmap string value) (v : value) :
  r !! "access" = Some (VDict a) → v ≠ VStr "restricted" →
  (a !! "record" = Some v →
     rule_needs (NYURecordPermissionPolicy.can_read F) (VDict r) =
       [gen_needs (AnyUser F) VNone] ∧
     rule_needs (DataUseRecordPermissionPolicy.can_read F) (VDict r) =
       [gen_needs (AnyUser F) VNone]) ∧
  (a !! "files" = Some v →
     rule_needs (NYURecordPermissionPolicy.can_read_files F) (VDict r) =
       [gen_needs (AnyUser F) VNone] ∧
     rule_needs (DataUseRecordPermissionPolicy.can_read_files F) (VDict r) =
       [gen_needs (AnyUser F) VNone]).
Proof.
  intros Hr Hv.
  unfold NYURecordPermissionPolicy.can_read, NYURecordPermissionPolicy.can_read_files,
    DataUseRecordPermissionPolicy.can_read, DataUseRecordPermissionPolicy.can_read_files,
    NYURecordPermissionPolicy.can_view, DataUseRecordPermissionPolicy.can_view,
    NYURecordPermissionPolicy.can_manage, DataUseRecordPermissionPolicy.can_manage,
    NYURecordPermissionPolicy.can_all, DataUseRecordPermissionPolicy.can_all.
  cbn [app]. rewrite !(read_rule_needs _ _ _ _ _ r a Hr).
  split; intros ->; cbn [default from_option id];
    by rewrite (py_eq_str_false v "restricted" Hv).
Qed.

Lemma read_rules_open_witness :
  rule_needs (DataUseRecordPermissionPolicy.can_read sample_framework)
    files_restricted_record = [Ok [any_user]].
Proof.
  refine (proj1 (proj1 (read_rules_open sample_framework
            (list_to_map [("access", dict [("record", VStr "public");
                                           ("files", VStr "restricted")]);
                          ("metadata", dict [])])
            (list_to_map [("record", VStr "public"); ("files", VStr "restricted")])
            (VStr "public") _ _) _)); [reflexivity|discriminate|reflexivity].
Defined.

(** ** Null metadata *)

(** X17: the [[]] default of [additional_descriptions] serves a missing
    key only. Where the key holds [None], the loop over it raises
    [TypeError], in [get_roles] and in
    [ProprietaryRecordPermissions.needs] alike; where [metadata] itself
    holds [None], both raise [AttributeError]. *)
Theorem null_descriptions_raise (r m : gmap string value) (user_role : string) :
  (r !! "metadata" = Some (VDict m) →
   m !! "additional_descriptions" = Some VNone →
   get_roles (VDict r) user_role = Raise TypeError ∧
   ProprietaryRecordPermissions.needs (VDict r) = Raise TypeError) ∧
  (r !! "metadata" = Some VNone →
   get_roles (VDict r) user_role = Raise AttributeError ∧
   ProprietaryRecordPermissions.needs (VDict r) = Raise AttributeError).
Proof.
  unfold get_roles, ProprietaryRecordPermissions.needs.
  split.
  - intros Hr Hm. py_step. rewrite Hr. py_step. by rewrite Hm.
  - intros Hr. py_step. by rewrite Hr.
Qed.

Lemma null_descriptions_raise_witness :
  get_roles (dict [("metadata", dict [("additional_descriptions", VNone)])])
    "viewer" = Raise TypeError.
Proof.
  refine (proj1 (proj1 (null_descriptions_raise
            (list_to_map [("metadata", dict [("additional_descriptions", VNone)])])
            (list_to_map [("additional_descriptions", VNone)]) "viewer") _ _));
    reflexivity.
Defined.
